(** * errorHandling.ts: EAFP vs LBYL and errors as values

    A shallow embedding of [js/src/errorHandling.ts] together with the
    small part of the JavaScript runtime its five functions rely on:
    dynamically typed values, property reads that throw on [null] and
    [undefined], [String.prototype.split], [try]/[catch], promises and
    [console.error]. *)

From Stdlib Require Import Floats String Ascii List Bool Arith ZArith Lia.
From ExtLib Require Import Structures.Monad Structures.MonadExc.
Import ListNotations MonadNotation.

Local Open Scope string_scope.
Local Open Scope monad_scope.

Set Warnings "-register-all".

(** ** Runtime values *)

Module Js.

(** The values a caller can pass for a parameter typed [any]: the
    primitives, arrays and plain objects (own data properties, as an
    object literal lists them).  Numbers are IEEE 754 binary64, which is
    what [float] is.  Callable values are not part of the model. *)
Inductive value : Type :=
| VUndefined
| VNull
| VBool (b : bool)
| VNum (n : float)
| VStr (s : string)
| VArr (elems : list value)
| VObj (props : list (string * value)).

(** What a [throw] (or a rejected promise) carries. *)
Inductive thrown : Type :=
| TypeError (msg : string)
| Reason (v : value).

(** The completion of a synchronous call: a normal return or a throw. *)
Inductive completion (A : Type) : Type :=
| Normal (a : A)
| Throw (e : thrown).
Arguments Normal {A} a.
Arguments Throw {A} e.

#[export] Instance Monad_completion : Monad completion :=
  {| ret := fun _ a => Normal a;
     bind := fun _ _ c k =>
       match c with
       | Normal a => k a
       | Throw e => Throw e
       end |}.

(** [try { c } catch (ex) { h ex }] *)
#[export] Instance Exc_completion : MonadExc thrown completion :=
  {| raise := fun _ e => Throw e;
     catch := fun _ c h =>
       match c with
       | Normal a => Normal a
       | Throw e => h e
       end |}.

(** Own property of an object literal; when a key is written twice the
    later one wins. *)
Fixpoint own_prop (k : string) (ps : list (string * value)) : option value :=
  match ps with
  | [] => None
  | (k', v) :: rest =>
      match own_prop k rest with
      | Some w => Some w
      | None => if String.eqb k k' then Some v else None
      end
  end.

(** [o.k] for a key [k] that no built-in prototype defines (the source
    reads [name] only): a [TypeError] on [undefined] and [null],
    [undefined] on the other primitives, on arrays and on objects
    without the property. *)
Definition get (o : value) (k : string) : completion value :=
  match o with
  | VUndefined => Throw (TypeError ("Cannot read properties of undefined (reading '" ++ k ++ "')"))
  | VNull => Throw (TypeError ("Cannot read properties of null (reading '" ++ k ++ "')"))
  | VObj ps =>
      Normal match own_prop k ps with
             | Some w => w
             | None => VUndefined
             end
  | VBool _ | VNum _ | VStr _ | VArr _ => Normal VUndefined
  end.

(** ramda's [isNil]: [x == null]. *)
Definition isNil (x : value) : bool :=
  match x with
  | VUndefined | VNull => true
  | _ => false
  end.

(** [s.split(sep)] for a one-character separator: the pieces between
    the occurrences of [sep], empty pieces included. *)
Fixpoint split (sep : ascii) (s : string) : list string :=
  match s with
  | EmptyString => [EmptyString]
  | String c rest =>
      if Ascii.eqb c sep then EmptyString :: split sep rest
      else match split sep rest with
           | piece :: pieces => String c piece :: pieces
           | [] => [String c EmptyString]
           end
  end.

(** [recv.split(sep)]: only strings inherit a [split] method.  Reading
    it from [undefined] or [null] throws; on every other value of the
    model the property is missing or is not callable, and the call
    throws as well. *)
Definition call_split (recv : value) (sep : ascii) : completion (list string) :=
  match recv with
  | VStr s => Normal (split sep s)
  | VUndefined => Throw (TypeError "Cannot read properties of undefined (reading 'split')")
  | VNull => Throw (TypeError "Cannot read properties of null (reading 'split')")
  | VBool _ | VNum _ | VArr _ | VObj _ => Throw (TypeError "split is not a function")
  end.

(** [parts[i]]: [None] stands for [undefined]. *)
Definition index {A : Type} (parts : list A) (i : nat) : option A :=
  nth_error parts i.

(** ['...' + x] for [x] a string or [undefined]. *)
Definition str_add (prefix : string) (x : option string) : string :=
  prefix ++ match x with
            | Some s => s
            | None => "undefined"
            end.

(** *** Promises and the console *)

(** The state a promise ends in.  [Pending] is a promise that never
    settles. *)
Inductive promise (A : Type) : Type :=
| Pending
| Fulfilled (a : A)
| Rejected (reason : thrown).
Arguments Pending {A}.
Arguments Fulfilled {A} a.
Arguments Rejected {A} reason.

(** Lines written with [console.error], oldest first. *)
Definition console : Type := list string.

(** The body of an [async] function: it runs against the console and
    leaves the function's promise in one of the three states. *)
Definition async (A : Type) : Type := console -> promise A * console.

#[export] Instance Monad_async : Monad async :=
  {| ret := fun _ a out => (Fulfilled a, out);
     bind := fun _ _ m k out =>
       match m out with
       | (Fulfilled a, out') => k a out'
       | (Rejected e, out') => (Rejected e, out')
       | (Pending, out') => (Pending, out')
       end |}.

#[export] Instance Exc_async : MonadExc thrown async :=
  {| raise := fun _ e out => (Rejected e, out);
     catch := fun _ m h out =>
       match m out with
       | (Rejected e, out') => h e out'
       | settled => settled
       end |}.

(** [await p]: the value of a fulfilled promise, a throw of the reason
    of a rejected one, no resumption for a pending one. *)
Definition await {A : Type} (p : promise A) : async A :=
  fun out => (p, out).

Definition console_error (msg : string) : async unit :=
  fun out => (Fulfilled tt, (out ++ [msg])%list).

(** The promise an [async] call hands back. *)
Definition settle {A : Type} (m : async A) (out : console) : promise A :=
  fst (m out).

End Js.

Import Js.

(** ** The module under verification *)

(** [squareOfSecondElement(list: number[])].  The elements are numbers,
    so [_.isNil(i)] holds exactly when index 1 is out of range and
    [list[1]] is [undefined]. *)
Definition squareOfSecondElement (list : list float) : completion float :=
  let i := index list 1 in
  ret match i with
      | None => 0%float
      | Some i => (i * i)%float
      end.

(** [getGreeting(user: any)], EAFP style. *)
Definition getGreeting (user : value) : completion string :=
  catch
    (name <- get user "name" ;;
     parts <- call_split name " " ;;
     ret (str_add "Hi " (index parts 0)))
    (fun ex => ret "Hi ").

(** [getGreeting1(user: any)], LBYL style.  [user.name] is read a second
    time in the [else] branch, as in the source. *)
Definition getGreeting1 (user : value) : completion string :=
  name <- get user "name" ;;
  if isNil name then ret "Hi "
  else
    name' <- get user "name" ;;
    parts <- call_split name' " " ;;
    ret (str_add "Hi " (index parts 0)).

Inductive UserServiceErrors : Type :=
| USER_NOT_FOUND
| SERVICE_NOT_AVAILABLE.

Record UserDetails : Type :=
  { name : string;
    email : string;
    age : float }.

(** fp-ts's [Either], by its two tags. *)
Inductive Either (E A : Type) : Type :=
| Left (left : E)
| Right (right : A).
Arguments Left {E A} left.
Arguments Right {E A} right.

Definition isRight {E A : Type} (ma : Either E A) : bool :=
  match ma with
  | Right _ => true
  | Left _ => false
  end.

(** [getQuotation1(userEmail, getUserDetails)].  The lookup is declared
    [any]; it is taken at the contract its callers use, a promise of
    [UserDetails].  A [return] inside the [try] block is [Some], falling
    out of the [try] statement is [None]. *)
Definition getQuotation1 (userEmail : string)
    (getUserDetails : string -> promise UserDetails) : async float :=
  returned <-
    catch
      (userDetails <- await (getUserDetails userEmail) ;;
       if (age userDetails <? 30)%float then ret (Some 500%float)
       else ret (Some 300%float))
      (fun ex => console_error "Error in getting user details" ;; ret None) ;;
  match returned with
  | Some premium => ret premium
  | None => ret 0%float
  end.

Definition getUserDetails1Type : Type :=
  string -> promise (Either UserServiceErrors UserDetails).

(** [getQuotation2(userEmail, getUserDetails)].  [isRight] narrows the
    union; reading [.right.age] off a [Left] would be a read on
    [undefined]. *)
Definition getQuotation2 (userEmail : string)
    (getUserDetails : getUserDetails1Type) : async float :=
  userDetailsOrError <- await (getUserDetails userEmail) ;;
  if isRight userDetailsOrError then
    match userDetailsOrError with
    | Right userDetails =>
        if (age userDetails <? 30)%float then ret 500%float
        else ret 300%float
    | Left _ =>
        raise (TypeError "Cannot read properties of undefined (reading 'age')")
    end
  else ret 0%float.

(** ** Vocabulary of the statements *)

(** The name of a user record as the specification types it: absent
    ([undefined]), [null], or a string. *)
Definition optional_string (v : value) : bool :=
  match v with
  | VUndefined | VNull | VStr _ => true
  | VBool _ | VNum _ | VArr _ | VObj _ => false
  end.

(** [s] up to, and without, its first occurrence of [sep]; all of [s]
    when [sep] does not occur. *)
Fixpoint upto (sep : ascii) (s : string) : string :=
  match s with
  | EmptyString => EmptyString
  | String c rest => if Ascii.eqb c sep then EmptyString else String c (upto sep rest)
  end.

(** [c] occurs in [s]. *)
Fixpoint occurs (c : ascii) (s : string) : bool :=
  match s with
  | EmptyString => false
  | String c' rest => Ascii.eqb c' c || occurs c rest
  end.

(** The specification's wording, "the first whitespace-delimited token
    of the name": white space is the space and the control characters
    tab, line feed, vertical tab, form feed and carriage return; a token
    is a maximal run of other characters. *)
Definition is_whitespace (c : ascii) : bool :=
  match nat_of_ascii c with
  | 9 | 10 | 11 | 12 | 13 | 32 => true
  | _ => false
  end.

Fixpoint skip_whitespace (s : string) : string :=
  match s with
  | EmptyString => EmptyString
  | String c rest => if is_whitespace c then skip_whitespace rest else s
  end.

Fixpoint take_token (s : string) : string :=
  match s with
  | EmptyString => EmptyString
  | String c rest => if is_whitespace c then EmptyString else String c (take_token rest)
  end.

Definition first_whitespace_token (s : string) : string :=
  take_token (skip_whitespace s).

(** A user record with the given name, and a name with a tab in it. *)
Definition user_named (v : value) : value :=
  VObj [("name", v); ("email", VStr "john.w@gmail.com")].

Definition john_tab_watson : string :=
  "John" ++ String "009" "Watson".

Definition john_watson : UserDetails :=
  {| name := "John Watson"; email := "john.w@gmail.com"; age := 20%float |}.

(** ** Variants the sources show beside the five functions *)




(** [pieces.join(sep)] for an array of strings. *)
Fixpoint join (sep : ascii) (pieces : list string) : string :=
  match pieces with
  | [] => EmptyString
  | [piece] => piece
  | piece :: rest => piece ++ String sep (join sep rest)
  end.

(** Case analysis on the comparisons of exponents and mantissas that
    [SFcompare] makes. *)
Ltac order_cases :=
  repeat match goal with
  | |- context [(?a ?= ?b)%Z] => destruct (Z.compare_spec a b)
  | H : context [(?a ?= ?b)%Z] |- _ => destruct (Z.compare_spec a b)
  | |- context [Pos.compare_cont Eq ?a ?b] =>
      change (Pos.compare_cont Eq a b) with (Pos.compare a b);
      destruct (Pos.compare_spec a b)
  | H : context [Pos.compare_cont Eq ?a ?b] |- _ =>
      change (Pos.compare_cont Eq a b) with (Pos.compare a b) in H;
      destruct (Pos.compare_spec a b)
  end.

(** ** Test vectors of [js/test/errorHandling.test.ts] *)

Definition john : value :=
  VObj [("name", VStr "John Watson"); ("email", VStr "john.w@gmail.com")].

Definition anotherUser : value :=
  VObj [("email", VStr "john.w@gmail.com")].

Example square_of_1_2 : squareOfSecondElement [1; 2]%float = Normal 4%float.
Proof. reflexivity. Qed.

Example square_of_1 : squareOfSecondElement [1%float] = Normal 0%float.
Proof. reflexivity. Qed.

Example greetings_john :
  getGreeting john = Normal "Hi John" /\ getGreeting1 john = Normal "Hi John".
Proof. split; reflexivity. Qed.

Example greetings_without_name :
  getGreeting anotherUser = Normal "Hi " /\ getGreeting1 anotherUser = Normal "Hi ".
Proof. split; reflexivity. Qed.

(** ** The runtime model *)

Lemma split_cons (sep : ascii) (s : string) :
  exists piece pieces, split sep s = piece :: pieces.
Proof.
  induction s as [|c rest IH]; simpl.
  - eauto.
  - destruct (Ascii.eqb c sep); [eauto|].
    destruct IH as (piece & pieces & ->). eauto.
Qed.

Lemma split_head (sep : ascii) (s : string) :
  index (split sep s) 0 = Some (upto sep s).
Proof.
  induction s as [|c rest IH]; simpl; [reflexivity|].
  destruct (Ascii.eqb c sep); [reflexivity|].
  destruct (split sep rest) as [|piece pieces]; [discriminate IH|].
  simpl in *. congruence.
Qed.

Lemma upto_no_sep (sep : ascii) (s : string) : occurs sep (upto sep s) = false.
Proof.
  induction s as [|c rest IH]; simpl; [reflexivity|].
  destruct (Ascii.eqb c sep) eqn:E; simpl; [reflexivity|].
  now rewrite E.
Qed.

Lemma upto_prefix (sep : ascii) (s : string) :
  (occurs sep s = false /\ upto sep s = s) \/
  (exists rest, s = upto sep s ++ String sep rest).
Proof.
  induction s as [|c rest IH]; simpl; [now left|].
  destruct (Ascii.eqb_spec c sep) as [->|_]; simpl.
  - right. now exists rest.
  - destruct IH as [[-> ->]|[rest' IH]].
    + now left.
    + right. exists rest'. now rewrite IH at 1.
Qed.

(** *** Comparison of binary64 numbers *)

Lemma SFcompare_antisym (a b : spec_float) (c : comparison) :
  SFcompare a b = Some c -> SFcompare b a = Some (CompOpp c).
Proof.
  destruct a as [sa|sa| |sa ma ea], b as [sb|sb| |sb mb eb]; simpl;
    try discriminate; intros [= <-]; f_equal;
    try (destruct sa); try (destruct sb); try reflexivity.
  all: rewrite (Z.compare_antisym ea eb);
    destruct (ea ?= eb)%Z; simpl; try reflexivity;
    pose proof (Pos.compare_cont_antisym ma mb Eq) as Hm; simpl in Hm;
    rewrite <- Hm; now rewrite ?CompOpp_involutive.
Qed.

(** [y <= x] excludes [x < y]; both are false when either side is NaN. *)
Lemma float_le_not_lt (x y : float) :
  (y <=? x)%float = true -> (x <? y)%float = false.
Proof.
  rewrite leb_spec, ltb_spec. unfold SFleb, SFltb.
  destruct (SFcompare (Prim2SF y) (Prim2SF x)) as [c|] eqn:E; [|discriminate].
  rewrite (SFcompare_antisym _ _ _ E).
  destruct c; simpl; congruence.
Qed.

(** ** The greetings *)

Section Greetings.

Variables (user v : value).
Hypothesis Hname : get user "name" = Normal v.

Lemma getGreeting_nil : isNil v = true -> getGreeting user = Normal "Hi ".
Proof.
  intros Hnil. unfold getGreeting. rewrite Hname.
  destruct v; try discriminate Hnil; reflexivity.
Qed.

Lemma getGreeting1_nil : isNil v = true -> getGreeting1 user = Normal "Hi ".
Proof.
  intros Hnil. unfold getGreeting1. rewrite Hname.
  cbn [bind Monad_completion]. now rewrite Hnil.
Qed.

Lemma getGreeting_string (s : string) :
  v = VStr s -> getGreeting user = Normal ("Hi " ++ upto " " s).
Proof.
  intros Hv. unfold getGreeting. rewrite Hname, Hv.
  cbn [bind ret catch Monad_completion Exc_completion call_split].
  now rewrite split_head.
Qed.

Lemma getGreeting1_string (s : string) :
  v = VStr s -> getGreeting1 user = Normal ("Hi " ++ upto " " s).
Proof.
  intros Hv. unfold getGreeting1. rewrite Hname, Hv.
  cbn [bind ret Monad_completion isNil call_split].
  now rewrite split_head.
Qed.

(** Any other name makes the [split] call of the LBYL version throw. *)
Lemma getGreeting1_not_string :
  optional_string v = false -> exists e, getGreeting1 user = Throw e.
Proof.
  intros Hv. unfold getGreeting1. rewrite Hname.
  destruct v; try discriminate Hv; simpl; eauto.
Qed.

End Greetings.

Lemma getGreeting_returns (user : value) :
  getGreeting user = Normal "Hi " \/
  exists s, getGreeting user = Normal ("Hi " ++ upto " " s).
Proof.
  destruct (get user "name") as [v|e] eqn:Hname.
  - destruct v; try (left; unfold getGreeting; rewrite Hname; reflexivity).
    right. eexists. now apply (getGreeting_string user (VStr s)).
  - left. unfold getGreeting. now rewrite Hname.
Qed.

Lemma getGreeting1_returns (user : value) (greeting : string) :
  getGreeting1 user = Normal greeting ->
  greeting = "Hi " \/ exists s, greeting = "Hi " ++ upto " " s.
Proof.
  destruct (get user "name") as [v|e] eqn:Hname.
  - destruct (optional_string v) eqn:Hv.
    + destruct v; try discriminate Hv.
      * rewrite (getGreeting1_nil user _ Hname eq_refl). intros [= <-]. now left.
      * rewrite (getGreeting1_nil user _ Hname eq_refl). intros [= <-]. now left.
      * rewrite (getGreeting1_string user _ Hname s eq_refl). intros [= <-].
        right. now exists s.
    + destruct (getGreeting1_not_string user v Hname Hv) as [e ->]. discriminate.
  - unfold getGreeting1. rewrite Hname. discriminate.
Qed.

(** X1: whenever the LBYL greeting [getGreeting1] returns, the EAFP
    greeting [getGreeting] returns the same string. *)
Lemma getGreeting1_refines (user : value) (greeting : string) :
  getGreeting1 user = Normal greeting -> getGreeting user = Normal greeting.
Proof.
  destruct (get user "name") as [v|e] eqn:Hname.
  - destruct (optional_string v) eqn:Hv.
    + destruct v; try discriminate Hv.
      * rewrite (getGreeting1_nil user _ Hname eq_refl).
        now rewrite (getGreeting_nil user _ Hname eq_refl).
      * rewrite (getGreeting1_nil user _ Hname eq_refl).
        now rewrite (getGreeting_nil user _ Hname eq_refl).
      * rewrite (getGreeting1_string user _ Hname s eq_refl).
        now rewrite (getGreeting_string user _ Hname s eq_refl).
    + destruct (getGreeting1_not_string user v Hname Hv) as [e ->]. discriminate.
  - unfold getGreeting1. rewrite Hname. discriminate.
Qed.

Lemma hi_prefix (s : string) : String.prefix "Hi " ("Hi " ++ s) = true.
Proof.
  simpl. now destruct s.
Qed.

(** ** The quotations *)

Section Quotations.

Variables (userEmail : string) (out : console).

Lemma getQuotation1_fulfilled lookup (d : UserDetails) :
  lookup userEmail = Fulfilled d ->
  getQuotation1 userEmail lookup out
  = (Fulfilled (if (age d <? 30)%float then 500 else 300)%float, out).
Proof.
  intros H. unfold getQuotation1, await. simpl. rewrite H.
  now destruct (age d <? 30)%float.
Qed.

Lemma getQuotation1_rejected lookup (reason : thrown) :
  lookup userEmail = Rejected reason ->
  getQuotation1 userEmail lookup out
  = (Fulfilled 0%float, (out ++ ["Error in getting user details"])%list).
Proof.
  intros H. unfold getQuotation1, await. simpl. now rewrite H.
Qed.

Lemma getQuotation1_pending lookup :
  lookup userEmail = Pending ->
  getQuotation1 userEmail lookup out = (Pending, out).
Proof.
  intros H. unfold getQuotation1, await. simpl. now rewrite H.
Qed.

Lemma getQuotation2_right (lookup : getUserDetails1Type) (d : UserDetails) :
  lookup userEmail = Fulfilled (Right d) ->
  getQuotation2 userEmail lookup out
  = (Fulfilled (if (age d <? 30)%float then 500 else 300)%float, out).
Proof.
  intros H. unfold getQuotation2, await. simpl. rewrite H. simpl.
  now destruct (age d <? 30)%float.
Qed.

Lemma getQuotation2_left (lookup : getUserDetails1Type) (e : UserServiceErrors) :
  lookup userEmail = Fulfilled (Left e) ->
  getQuotation2 userEmail lookup out = (Fulfilled 0%float, out).
Proof.
  intros H. unfold getQuotation2, await. simpl. now rewrite H.
Qed.

Lemma getQuotation2_rejected (lookup : getUserDetails1Type) (reason : thrown) :
  lookup userEmail = Rejected reason ->
  getQuotation2 userEmail lookup out = (Rejected reason, out).
Proof.
  intros H. unfold getQuotation2, await. simpl. now rewrite H.
Qed.

End Quotations.

(** ** Properties of the specification *)

(** C1, as stated, fails: on a [null] user the EAFP greeting recovers to
    ["Hi "] while the LBYL greeting throws at [user.name], so the two do
    not return the same string. *)
Lemma greetings_differ_on_null :
  getGreeting VNull = Normal "Hi " /\
  getGreeting1 VNull
  = Throw (TypeError "Cannot read properties of null (reading 'name')") /\
  ~ (exists greeting,
        getGreeting VNull = Normal greeting /\ getGreeting1 VNull = Normal greeting).
Proof.
  repeat split. intros (greeting & _ & H). discriminate H.
Qed.

(** C1, amended: for every user whose [name] can be read (any value but
    [null] and [undefined]) and is absent, [null] or a string, the
    exception-based and the precondition-based greeting return the same
    string. *)
Theorem greetings_agree (user v : value) :
  get user "name" = Normal v ->
  optional_string v = true ->
  exists greeting,
    getGreeting user = Normal greeting /\ getGreeting1 user = Normal greeting.
Proof.
  intros Hname Hv. destruct v; try discriminate Hv.
  - exists "Hi ". split;
      [now apply (getGreeting_nil user VUndefined)
      |now apply (getGreeting1_nil user VUndefined)].
  - exists "Hi ". split;
      [now apply (getGreeting_nil user VNull)|now apply (getGreeting1_nil user VNull)].
  - exists ("Hi " ++ upto " " s). split;
      [now apply (getGreeting_string user (VStr s))
      |now apply (getGreeting1_string user (VStr s))].
Qed.

Lemma greetings_agree_witness :
  get john "name" = Normal (VStr "John Watson") /\
  optional_string (VStr "John Watson") = true /\
  exists greeting,
    getGreeting john = Normal greeting /\ getGreeting1 john = Normal greeting.
Proof.
  split; [reflexivity|]. split; [reflexivity|].
  apply (greetings_agree john (VStr "John Watson")); reflexivity.
Defined.

(** C2: [squareOfSecondElement] returns 0 on a list of fewer than two
    numbers, and the square of the element at index 1 on a list of at
    least two. *)
Theorem squareOfSecondElement_spec (list : list float) :
  (length list < 2 -> squareOfSecondElement list = Normal 0%float) /\
  (2 <= length list ->
   exists second,
     nth_error list 1 = Some second /\
     squareOfSecondElement list = Normal (second * second)%float).
Proof.
  unfold squareOfSecondElement, index.
  destruct list as [|first [|second rest]]; simpl; split; intros Hlen;
    try reflexivity; try lia.
  exists second. now split.
Qed.

Lemma squareOfSecondElement_spec_witness :
  (length [1%float] < 2 /\ squareOfSecondElement [1%float] = Normal 0%float) /\
  (2 <= length [1; 2]%float /\
   exists second,
     nth_error [1; 2]%float 1 = Some second /\
     squareOfSecondElement [1; 2]%float = Normal (second * second)%float).
Proof.
  split.
  - split; [simpl; lia|].
    apply (proj1 (squareOfSecondElement_spec [1%float])). simpl; lia.
  - split; [simpl; lia|].
    apply (proj2 (squareOfSecondElement_spec [1; 2]%float)). simpl; lia.
Defined.

(** C3, as stated, fails: a tab is white space, yet the greetings of
    the name "John<TAB>Watson" keep the whole name, where the first
    whitespace-delimited token is "John". *)
Lemma greeting_keeps_tab :
  getGreeting (user_named (VStr john_tab_watson)) = Normal ("Hi " ++ john_tab_watson) /\
  getGreeting1 (user_named (VStr john_tab_watson)) = Normal ("Hi " ++ john_tab_watson) /\
  first_whitespace_token john_tab_watson = "John" /\
  getGreeting (user_named (VStr john_tab_watson))
  <> Normal ("Hi " ++ first_whitespace_token john_tab_watson) /\
  getGreeting1 (user_named (VStr john_tab_watson))
  <> Normal ("Hi " ++ first_whitespace_token john_tab_watson).
Proof.
  repeat split; discriminate.
Qed.

(** C3, amended: for every user whose [name] can be read, each greeting
    returns "Hi " followed by the part of the name before its first
    space character (the whole name when it has no space) when the name
    is a string, and exactly "Hi " when the name is absent or [null]. *)
Theorem greeting_contract (user v : value) :
  get user "name" = Normal v ->
  (isNil v = true ->
   getGreeting user = Normal "Hi " /\ getGreeting1 user = Normal "Hi ") /\
  (forall s, v = VStr s ->
   exists token,
     occurs " " token = false /\
     (s = token \/ exists rest, s = token ++ String " " rest) /\
     getGreeting user = Normal ("Hi " ++ token) /\
     getGreeting1 user = Normal ("Hi " ++ token)).
Proof.
  intros Hname. split.
  - intros Hnil. split;
      [now apply (getGreeting_nil user v)|now apply (getGreeting1_nil user v)].
  - intros s Hv. exists (upto " " s). repeat split.
    + apply upto_no_sep.
    + destruct (upto_prefix " " s) as [[_ E]|[rest E]]; [now left|right; eauto].
    + now apply (getGreeting_string user v).
    + now apply (getGreeting1_string user v).
Qed.

Lemma greeting_contract_witness :
  get john "name" = Normal (VStr "John Watson") /\
  (isNil (VStr "John Watson") = true ->
   getGreeting john = Normal "Hi " /\ getGreeting1 john = Normal "Hi ") /\
  (forall s, VStr "John Watson" = VStr s ->
   exists token,
     occurs " " token = false /\
     (s = token \/ exists rest, s = token ++ String " " rest) /\
     getGreeting john = Normal ("Hi " ++ token) /\
     getGreeting1 john = Normal ("Hi " ++ token)).
Proof.
  split; [reflexivity|].
  apply (greeting_contract john (VStr "John Watson")). reflexivity.
Defined.

(** C4: [getQuotation1] resolves to 500 when the lookup resolves to user
    details with age < 30, to 300 when it resolves with age >= 30, and
    to 0 (after logging) whenever the lookup rejects, whatever the
    reason. *)
Theorem getQuotation1_spec (userEmail : string)
    (getUserDetails : string -> promise UserDetails) (out : console) :
  (forall d, getUserDetails userEmail = Fulfilled d ->
     (age d <? 30)%float = true ->
     getQuotation1 userEmail getUserDetails out = (Fulfilled 500%float, out)) /\
  (forall d, getUserDetails userEmail = Fulfilled d ->
     (30 <=? age d)%float = true ->
     getQuotation1 userEmail getUserDetails out = (Fulfilled 300%float, out)) /\
  (forall reason, getUserDetails userEmail = Rejected reason ->
     getQuotation1 userEmail getUserDetails out
     = (Fulfilled 0%float, (out ++ ["Error in getting user details"])%list)).
Proof.
  repeat split.
  - intros d Hd Hage.
    rewrite (getQuotation1_fulfilled _ _ _ _ Hd). now rewrite Hage.
  - intros d Hd Hage.
    rewrite (getQuotation1_fulfilled _ _ _ _ Hd).
    now rewrite (float_le_not_lt _ _ Hage).
  - intros reason Hreason. now apply (getQuotation1_rejected _ _ _ reason).
Qed.

Lemma getQuotation1_spec_witness :
  let young := fun _ : string => Fulfilled john_watson in
  let timeout := fun _ : string =>
    @Rejected UserDetails (Reason (VStr "Timeout Error")) in
  (young "john.w@gmail.com" = Fulfilled john_watson /\
   (age john_watson <? 30)%float = true /\
   getQuotation1 "john.w@gmail.com" young [] = (Fulfilled 500%float, [])) /\
  (timeout "john.w@gmail.com" = Rejected (Reason (VStr "Timeout Error")) /\
   getQuotation1 "john.w@gmail.com" timeout []
   = (Fulfilled 0%float, ["Error in getting user details"])).
Proof.
  intros young timeout. split.
  - split; [reflexivity|]. split; [reflexivity|].
    apply (proj1 (getQuotation1_spec "john.w@gmail.com" young []) john_watson);
      reflexivity.
  - split; [reflexivity|].
    apply (proj2 (proj2 (getQuotation1_spec "john.w@gmail.com" timeout []))
             (Reason (VStr "Timeout Error"))).
    reflexivity.
Defined.

(** C5: [getQuotation2] resolves to 500 on a [Right] with age < 30, to
    300 on a [Right] with age >= 30, and to 0 on a [Left], for
    USER-NOT-FOUND and SERVICE-NOT-AVAILABLE alike. *)
Theorem getQuotation2_spec (userEmail : string)
    (getUserDetails : getUserDetails1Type) (out : console) :
  (forall d, getUserDetails userEmail = Fulfilled (Right d) ->
     (age d <? 30)%float = true ->
     getQuotation2 userEmail getUserDetails out = (Fulfilled 500%float, out)) /\
  (forall d, getUserDetails userEmail = Fulfilled (Right d) ->
     (30 <=? age d)%float = true ->
     getQuotation2 userEmail getUserDetails out = (Fulfilled 300%float, out)) /\
  (forall e, getUserDetails userEmail = Fulfilled (Left e) ->
     (e = USER_NOT_FOUND \/ e = SERVICE_NOT_AVAILABLE) /\
     getQuotation2 userEmail getUserDetails out = (Fulfilled 0%float, out)).
Proof.
  repeat split.
  - intros d Hd Hage.
    rewrite (getQuotation2_right _ _ _ _ Hd). now rewrite Hage.
  - intros d Hd Hage.
    rewrite (getQuotation2_right _ _ _ _ Hd).
    now rewrite (float_le_not_lt _ _ Hage).
  - destruct e; [now left|now right].
  - now apply (getQuotation2_left _ _ _ e).
Qed.

Lemma getQuotation2_spec_witness :
  let young : getUserDetails1Type := fun _ => Fulfilled (Right john_watson) in
  let missing : getUserDetails1Type := fun _ => Fulfilled (Left USER_NOT_FOUND) in
  (young "john.w@gmail.com" = Fulfilled (Right john_watson) /\
   (age john_watson <? 30)%float = true /\
   getQuotation2 "john.w@gmail.com" young [] = (Fulfilled 500%float, [])) /\
  (missing "john.w@gmail.com" = Fulfilled (Left USER_NOT_FOUND) /\
   getQuotation2 "john.w@gmail.com" missing [] = (Fulfilled 0%float, [])).
Proof.
  intros young missing. split.
  - split; [reflexivity|]. split; [reflexivity|].
    apply (proj1 (getQuotation2_spec "john.w@gmail.com" young []) john_watson);
      reflexivity.
  - split; [reflexivity|].
    apply (proj2 (proj2 (getQuotation2_spec "john.w@gmail.com" missing []))
             USER_NOT_FOUND).
    reflexivity.
Defined.

(** C6: when the lookup yields user details of age exactly 30, both
    [getQuotation1] and [getQuotation2] resolve to 300. *)
Theorem quotation_at_30 (userEmail : string)
    (lookup1 : string -> promise UserDetails) (lookup2 : getUserDetails1Type)
    (d : UserDetails) (out : console) :
  age d = 30%float ->
  lookup1 userEmail = Fulfilled d ->
  lookup2 userEmail = Fulfilled (Right d) ->
  settle (getQuotation1 userEmail lookup1) out = Fulfilled 300%float /\
  settle (getQuotation2 userEmail lookup2) out = Fulfilled 300%float.
Proof.
  intros Hage H1 H2. unfold settle.
  rewrite (getQuotation1_fulfilled _ _ _ _ H1), (getQuotation2_right _ _ _ _ H2).
  rewrite Hage. now split.
Qed.

Lemma quotation_at_30_witness :
  let d := {| name := "John Watson"; email := "john.w@gmail.com"; age := 30%float |} in
  age d = 30%float /\
  settle (getQuotation1 "john.w@gmail.com" (fun _ => Fulfilled d)) [] = Fulfilled 300%float /\
  settle (getQuotation2 "john.w@gmail.com" (fun _ => Fulfilled (Right d))) []
  = Fulfilled 300%float.
Proof.
  intros d. split; [reflexivity|].
  apply (quotation_at_30 "john.w@gmail.com"
           (fun _ => Fulfilled d) (fun _ => Fulfilled (Right d)) d []);
    reflexivity.
Defined.

(** C7: the two workflows agree: on a lookup resolving to [d]
    [getQuotation1] returns the premium [getQuotation2] returns on a
    lookup resolving to [Right d], and on a rejecting lookup it returns
    the premium, 0, that [getQuotation2] returns on any [Left]. *)
Theorem quotations_agree (userEmail : string)
    (lookup1 : string -> promise UserDetails) (lookup2 : getUserDetails1Type)
    (out : console) :
  (forall d, lookup1 userEmail = Fulfilled d ->
     lookup2 userEmail = Fulfilled (Right d) ->
     exists premium,
       settle (getQuotation1 userEmail lookup1) out = Fulfilled premium /\
       settle (getQuotation2 userEmail lookup2) out = Fulfilled premium) /\
  (forall reason e, lookup1 userEmail = Rejected reason ->
     lookup2 userEmail = Fulfilled (Left e) ->
     settle (getQuotation1 userEmail lookup1) out = Fulfilled 0%float /\
     settle (getQuotation2 userEmail lookup2) out = Fulfilled 0%float).
Proof.
  unfold settle. split.
  - intros d H1 H2.
    rewrite (getQuotation1_fulfilled _ _ _ _ H1), (getQuotation2_right _ _ _ _ H2).
    eexists. split; reflexivity.
  - intros reason e H1 H2.
    rewrite (getQuotation1_rejected _ _ _ _ H1), (getQuotation2_left _ _ _ _ H2).
    now split.
Qed.

Lemma quotations_agree_witness :
  let email := "john.w@gmail.com" in
  (exists premium,
     settle (getQuotation1 email (fun _ => Fulfilled john_watson)) [] = Fulfilled premium /\
     settle (getQuotation2 email (fun _ => Fulfilled (Right john_watson))) []
     = Fulfilled premium) /\
  (settle (getQuotation1 email (fun _ => Rejected (TypeError "down"))) []
   = Fulfilled 0%float /\
   settle (getQuotation2 email (fun _ => Fulfilled (Left SERVICE_NOT_AVAILABLE))) []
   = Fulfilled 0%float).
Proof.
  intros email. split.
  - apply (proj1 (quotations_agree email (fun _ => Fulfilled john_watson)
                    (fun _ => Fulfilled (Right john_watson)) []) john_watson);
      reflexivity.
  - apply (proj2 (quotations_agree email (fun _ => Rejected (TypeError "down"))
                    (fun _ => Fulfilled (Left SERVICE_NOT_AVAILABLE)) [])
             (TypeError "down") SERVICE_NOT_AVAILABLE);
      reflexivity.
Defined.

(** C8, as stated, fails: on a user whose name is the number 42 the
    LBYL greeting calls a [split] that numbers do not have, and the
    [TypeError] reaches the caller; the EAFP greeting recovers. *)
Lemma getGreeting1_throws_on_numeric_name :
  getGreeting (user_named (VNum 42)) = Normal "Hi " /\
  getGreeting1 (user_named (VNum 42)) = Throw (TypeError "split is not a function") /\
  ~ (exists greeting, getGreeting1 (user_named (VNum 42)) = Normal greeting).
Proof.
  repeat split. intros [greeting H]. discriminate H.
Qed.

(** C8, amended: [squareOfSecondElement] and [getGreeting] return
    normally on every input; [getGreeting1] returns normally on every
    user whose [name] can be read (any value but [null] and [undefined])
    and is absent, [null] or a string. *)
Theorem no_unhandled_fault :
  (forall list, exists square, squareOfSecondElement list = Normal square) /\
  (forall user, exists greeting, getGreeting user = Normal greeting) /\
  (forall user v,
     get user "name" = Normal v ->
     optional_string v = true ->
     exists greeting, getGreeting1 user = Normal greeting).
Proof.
  repeat split.
  - intros list. unfold squareOfSecondElement. simpl. eauto.
  - intros user. destruct (getGreeting_returns user) as [H|[s H]]; eauto.
  - intros user v Hname Hv. destruct v; try discriminate Hv.
    + exists "Hi ". now apply (getGreeting1_nil user VUndefined).
    + exists "Hi ". now apply (getGreeting1_nil user VNull).
    + eexists. now apply (getGreeting1_string user (VStr s)).
Qed.

Lemma no_unhandled_fault_witness :
  get anotherUser "name" = Normal VUndefined /\
  optional_string VUndefined = true /\
  exists greeting, getGreeting1 anotherUser = Normal greeting.
Proof.
  split; [reflexivity|]. split; [reflexivity|].
  apply (proj2 (proj2 no_unhandled_fault) anotherUser VUndefined); reflexivity.
Defined.

(** C9: whatever the lookup's outcome (a resolution to any user
    details or a rejection for [getQuotation1], any [Either] for
    [getQuotation2]), the premium returned is 0, 300 or 500. *)
Theorem quotation_range (userEmail : string)
    (lookup1 : string -> promise UserDetails) (lookup2 : getUserDetails1Type)
    (out : console) :
  (lookup1 userEmail <> Pending ->
   exists premium,
     settle (getQuotation1 userEmail lookup1) out = Fulfilled premium /\
     (premium = 0 \/ premium = 300 \/ premium = 500)%float) /\
  (forall result, lookup2 userEmail = Fulfilled result ->
   exists premium,
     settle (getQuotation2 userEmail lookup2) out = Fulfilled premium /\
     (premium = 0 \/ premium = 300 \/ premium = 500)%float).
Proof.
  unfold settle. split.
  - intros Hsettled. destruct (lookup1 userEmail) as [|d|reason] eqn:H1.
    + now contradiction Hsettled.
    + rewrite (getQuotation1_fulfilled _ _ _ _ H1).
      destruct (age d <? 30)%float; simpl; eexists; (split; [reflexivity|tauto]).
    + rewrite (getQuotation1_rejected _ _ _ _ H1). simpl; eexists; (split; [reflexivity|tauto]).
  - intros [e|d] H2.
    + rewrite (getQuotation2_left _ _ _ _ H2). simpl; eexists; (split; [reflexivity|tauto]).
    + rewrite (getQuotation2_right _ _ _ _ H2).
      destruct (age d <? 30)%float; simpl; eexists; (split; [reflexivity|tauto]).
Qed.

Lemma quotation_range_witness :
  let email := "john.w@gmail.com" in
  let lookup1 := fun _ : string => Fulfilled john_watson in
  let lookup2 : getUserDetails1Type := fun _ => Fulfilled (Left USER_NOT_FOUND) in
  (lookup1 email <> Pending /\
   exists premium,
     settle (getQuotation1 email lookup1) [] = Fulfilled premium /\
     (premium = 0 \/ premium = 300 \/ premium = 500)%float) /\
  (lookup2 email = Fulfilled (Left USER_NOT_FOUND) /\
   exists premium,
     settle (getQuotation2 email lookup2) [] = Fulfilled premium /\
     (premium = 0 \/ premium = 300 \/ premium = 500)%float).
Proof.
  intros email lookup1 lookup2. split.
  - split; [discriminate|].
    apply (proj1 (quotation_range email lookup1 lookup2 [])). discriminate.
  - split; [reflexivity|].
    apply (proj2 (quotation_range email lookup1 lookup2 []) (Left USER_NOT_FOUND)).
    reflexivity.
Defined.

(** C10: on every user [getGreeting] returns a string that starts with
    "Hi ", and every string [getGreeting1] returns starts with "Hi ":
    the fallback branch and the named branch both keep the prefix. *)
Theorem greeting_prefix (user : value) :
  (exists greeting,
     getGreeting user = Normal greeting /\ String.prefix "Hi " greeting = true) /\
  (forall greeting,
     getGreeting1 user = Normal greeting -> String.prefix "Hi " greeting = true).
Proof.
  split.
  - destruct (getGreeting_returns user) as [H|[s H]]; rewrite H; eexists; split;
      try reflexivity. apply hi_prefix.
  - intros greeting H.
    destruct (getGreeting1_returns user greeting H) as [->|[s ->]];
      [reflexivity|apply hi_prefix].
Qed.

Lemma greeting_prefix_witness :
  getGreeting1 john = Normal "Hi John" /\ String.prefix "Hi " "Hi John" = true.
Proof.
  split; [reflexivity|].
  apply (proj2 (greeting_prefix john) "Hi John"). reflexivity.
Defined.

(** ** Further properties of the code *)

(** *** Binary64 facts they rest on *)

Lemma SFmul_self_not_negative (x : spec_float) :
  SFltb (SFmul prec emax x x) (S754_zero false) = false.
Proof.
  destruct x as [s|s| |s m e]; simpl; rewrite ?xorb_nilpotent; try reflexivity.
  unfold binary_round_aux.
  destruct (shr_fexp prec emax (Z.pos (m * m)) (e + e) loc_Exact) as [mrs' e'].
  destruct (shr_fexp prec emax _ e' loc_Exact) as [mrs'' e''].
  destruct (shr_m mrs''); try reflexivity.
  now destruct (e'' <=? emax - prec)%Z.
Qed.

Lemma square_not_lt_zero (x : float) : (x * x <? 0)%float = false.
Proof.
  rewrite ltb_spec, mul_spec.
  change (Prim2SF 0) with (S754_zero false).
  apply SFmul_self_not_negative.
Qed.

Lemma SFleb_ltb_trans (a b c : spec_float) :
  SFleb a b = true -> SFltb b c = true -> SFltb a c = true.
Proof.
  unfold SFleb, SFltb.
  destruct a as [sa|sa| |sa ma ea], b as [sb|sb| |sb mb eb], c as [sc|sc| |sc mc ec];
    simpl; try discriminate; try reflexivity;
    try (destruct sa); try (destruct sb); try (destruct sc);
    simpl; try discriminate; try reflexivity;
    order_cases; simpl; intros; try discriminate; try reflexivity; subst; try lia.
Qed.

Lemma float_le_lt_trans (x y z : float) :
  (x <=? y)%float = true -> (y <? z)%float = true -> (x <? z)%float = true.
Proof.
  rewrite leb_spec, !ltb_spec. apply SFleb_ltb_trans.
Qed.


(** *** [String.prototype.split] *)

Lemma upto_app (sep : ascii) (first rest : string) :
  occurs sep first = false ->
  upto sep first = first /\ upto sep (first ++ String sep rest) = first.
Proof.
  induction first as [|c first IH]; simpl.
  - intros _. now rewrite Ascii.eqb_refl.
  - intros H. apply orb_false_elim in H as [Hc Hfirst].
    rewrite Hc. destruct (IH Hfirst) as [-> ->]. now split.
Qed.

Lemma split_join (sep : ascii) (s : string) : join sep (split sep s) = s.
Proof.
  induction s as [|c rest IH]; simpl; [reflexivity|].
  destruct (split_cons sep rest) as (piece & pieces & E).
  rewrite E in *.
  destruct (Ascii.eqb_spec c sep) as [->|_].
  - change (String sep (join sep (piece :: pieces)) = String sep rest).
    now rewrite IH.
  - destruct pieces; rewrite <- IH; reflexivity.
Qed.

Lemma split_pieces (sep : ascii) (s : string) :
  Forall (fun piece => occurs sep piece = false) (split sep s).
Proof.
  induction s as [|c rest IH]; simpl.
  - now constructor.
  - destruct (Ascii.eqb c sep) eqn:E.
    + now constructor.
    + destruct (split sep rest) as [|piece pieces]; [repeat constructor; simpl; now rewrite E|].
      inversion IH; subst. constructor; [simpl; now rewrite E|assumption].
Qed.

(** *** The greetings *)

Lemma getGreeting1_refines_witness :
  getGreeting1 john = Normal "Hi John" /\ getGreeting john = Normal "Hi John".
Proof.
  split; [reflexivity|].
  apply (getGreeting1_refines john "Hi John"). reflexivity.
Defined.

(** X2: whenever the LBYL greeting [getGreeting1] throws, the EAFP
    greeting [getGreeting] returns exactly the fallback "Hi ". *)
Theorem getGreeting_hides_fault (user : value) (e : thrown) :
  getGreeting1 user = Throw e -> getGreeting user = Normal "Hi ".
Proof.
  destruct (get user "name") as [v|e'] eqn:Hname.
  - destruct v;
      try (intros _; unfold getGreeting; rewrite Hname; reflexivity).
    rewrite (getGreeting1_string user _ Hname s eq_refl). discriminate.
  - intros _. unfold getGreeting. now rewrite Hname.
Qed.

Lemma getGreeting_hides_fault_witness :
  getGreeting1 (user_named (VNum 42)) = Throw (TypeError "split is not a function") /\
  getGreeting (user_named (VNum 42)) = Normal "Hi ".
Proof.
  split; [reflexivity|].
  apply (getGreeting_hides_fault (user_named (VNum 42))
           (TypeError "split is not a function")).
  reflexivity.
Defined.

(** X3: [getGreeting1] throws exactly on a [null] or [undefined] user
    and on a user whose name is neither absent, [null] nor a string. *)
Theorem getGreeting1_throws_iff (user : value) :
  (exists e, getGreeting1 user = Throw e) <->
  (isNil user = true \/
   exists v, get user "name" = Normal v /\ optional_string v = false).
Proof.
  split.
  - intros [e H]. destruct (get user "name") as [v|e'] eqn:Hname.
    + right. exists v. split; [reflexivity|].
      destruct v; try reflexivity.
      * now rewrite (getGreeting1_nil user _ Hname eq_refl) in H.
      * now rewrite (getGreeting1_nil user _ Hname eq_refl) in H.
      * now rewrite (getGreeting1_string user _ Hname s eq_refl) in H.
    + left. now destruct user.
  - intros [Hnil|(v & Hname & Hv)].
    + destruct user; try discriminate Hnil; eexists; reflexivity.
    + now apply (getGreeting1_not_string user v).
Qed.

Lemma getGreeting1_throws_iff_witness :
  (isNil VUndefined = true /\ exists e, getGreeting1 VUndefined = Throw e) /\
  ((exists e, getGreeting1 (user_named (VBool true)) = Throw e) /\
   (isNil (user_named (VBool true)) = true \/
    exists v, get (user_named (VBool true)) "name" = Normal v /\
              optional_string v = false)).
Proof.
  split.
  - split; [reflexivity|].
    apply (proj2 (getGreeting1_throws_iff VUndefined)). now left.
  - assert (H : exists e, getGreeting1 (user_named (VBool true)) = Throw e)
      by (eexists; reflexivity).
    split; [exact H|].
    apply (proj1 (getGreeting1_throws_iff (user_named (VBool true)))). exact H.
Defined.

(** X4: when the name is a first name without a space, alone or
    followed by a space and anything else, both greetings are "Hi "
    followed by that first name: what follows the first space is
    ignored. *)
Theorem greeting_of_first_name (user : value) (first rest : string) :
  occurs " " first = false ->
  get user "name" = Normal (VStr first) \/
  get user "name" = Normal (VStr (first ++ String " " rest)) ->
  getGreeting user = Normal ("Hi " ++ first) /\
  getGreeting1 user = Normal ("Hi " ++ first).
Proof.
  intros Hfirst Hname.
  destruct (upto_app " " first rest Hfirst) as [Halone Hrest].
  destruct Hname as [Hname|Hname].
  - rewrite (getGreeting_string user _ Hname _ eq_refl),
      (getGreeting1_string user _ Hname _ eq_refl), Halone. now split.
  - rewrite (getGreeting_string user _ Hname _ eq_refl),
      (getGreeting1_string user _ Hname _ eq_refl), Hrest. now split.
Qed.

Lemma greeting_of_first_name_witness :
  occurs " " "John" = false /\
  get john "name" = Normal (VStr ("John" ++ String " " "Watson")) /\
  getGreeting john = Normal ("Hi " ++ "John") /\
  getGreeting1 john = Normal ("Hi " ++ "John").
Proof.
  split; [reflexivity|]. split; [reflexivity|].
  apply (greeting_of_first_name john "John" "Watson"); [reflexivity|].
  right. reflexivity.
Defined.


(** X13: [split] and [join] round-trip: joining the pieces of
    [s.split(sep)] with [sep] gives [s] back, and no piece contains the
    separator. *)
Theorem split_round_trip (sep : ascii) (s : string) :
  join sep (split sep s) = s /\
  Forall (fun piece => occurs sep piece = false) (split sep s).
Proof.
  split; [apply split_join|apply split_pieces].
Qed.

(** *** The square *)

(** X5: whatever the list, [squareOfSecondElement] returns a number
    that is not below zero (a NaN element gives NaN, which is not below
    zero either). *)
Theorem square_never_negative (list : list float) :
  exists square,
    squareOfSecondElement list = Normal square /\ (square <? 0)%float = false.
Proof.
  unfold squareOfSecondElement. cbn [ret Monad_completion].
  destruct (index list 1) as [i|]; eexists; (split; [reflexivity|]).
  - apply square_not_lt_zero.
  - reflexivity.
Qed.

(** *** The quotations *)

Section MoreQuotations.

Variables (userEmail : string) (out : console).




Lemma getQuotation2_pending (lookup : getUserDetails1Type) :
  lookup userEmail = Pending ->
  getQuotation2 userEmail lookup out = (Pending, out).
Proof.
  intros H. unfold getQuotation2, await. simpl. now rewrite H.
Qed.

(** X6: [getQuotation1] never rejects, whatever the lookup does, and
    its promise stays pending exactly when the lookup's does. *)
Theorem getQuotation1_never_rejects (lookup : string -> promise UserDetails) :
  (forall reason,
     settle (getQuotation1 userEmail lookup) out <> Rejected reason) /\
  (settle (getQuotation1 userEmail lookup) out = Pending <->
   lookup userEmail = Pending).
Proof.
  unfold settle. destruct (lookup userEmail) as [|d|reason'] eqn:H.
  - rewrite (getQuotation1_pending _ _ _ H). repeat split; discriminate.
  - rewrite (getQuotation1_fulfilled _ _ _ _ H).
    repeat split; simpl; discriminate.
  - rewrite (getQuotation1_rejected _ _ _ _ H).
    repeat split; simpl; discriminate.
Qed.

(** X7: [getQuotation2] has no recovery of its own: it rejects exactly
    when the lookup rejects, and with the lookup's reason. *)
Theorem getQuotation2_rejects_iff (lookup : getUserDetails1Type) (reason : thrown) :
  settle (getQuotation2 userEmail lookup) out = Rejected reason <->
  lookup userEmail = Rejected reason.
Proof.
  unfold settle. destruct (lookup userEmail) as [|[e|d]|reason'] eqn:H.
  - rewrite (getQuotation2_pending _ H). simpl. split; discriminate.
  - rewrite (getQuotation2_left _ _ _ _ H). simpl. split; discriminate.
  - rewrite (getQuotation2_right _ _ _ _ H). simpl. split; discriminate.
  - rewrite (getQuotation2_rejected _ _ _ _ H). simpl.
    split; intros [= ->]; reflexivity.
Qed.

(** X8: [getQuotation2] writes nothing to the console; [getQuotation1]
    writes its one line when the lookup rejects and nothing
    otherwise. *)
Theorem quotation_console
    (lookup1 : string -> promise UserDetails) (lookup2 : getUserDetails1Type) :
  snd (getQuotation2 userEmail lookup2 out) = out /\
  ((exists reason, lookup1 userEmail = Rejected reason) /\
   snd (getQuotation1 userEmail lookup1 out)
   = (out ++ ["Error in getting user details"])%list
   \/
   (forall reason, lookup1 userEmail <> Rejected reason) /\
   snd (getQuotation1 userEmail lookup1 out) = out).
Proof.
  split.
  - destruct (lookup2 userEmail) as [|[e|d]|reason] eqn:H.
    + now rewrite (getQuotation2_pending _ H).
    + now rewrite (getQuotation2_left _ _ _ _ H).
    + now rewrite (getQuotation2_right _ _ _ _ H).
    + now rewrite (getQuotation2_rejected _ _ _ _ H).
  - destruct (lookup1 userEmail) as [|d|reason] eqn:H.
    + right. rewrite (getQuotation1_pending _ _ _ H). now split.
    + right. rewrite (getQuotation1_fulfilled _ _ _ _ H). now split.
    + left. rewrite (getQuotation1_rejected _ _ _ _ H). split; [eauto|reflexivity].
Qed.


End MoreQuotations.

Lemma getQuotation1_never_rejects_witness :
  (fun _ : string => @Pending UserDetails) "john.w@gmail.com" = Pending /\
  settle (getQuotation1 "john.w@gmail.com" (fun _ => Pending)) [] = Pending.
Proof.
  split; [reflexivity|].
  apply (proj2 (getQuotation1_never_rejects "john.w@gmail.com" [] (fun _ => Pending))).
  reflexivity.
Defined.

Lemma getQuotation2_rejects_iff_witness :
  let down : getUserDetails1Type := fun _ => Rejected (TypeError "down") in
  down "john.w@gmail.com" = Rejected (TypeError "down") /\
  settle (getQuotation2 "john.w@gmail.com" down) [] = Rejected (TypeError "down").
Proof.
  intros down. split; [reflexivity|].
  apply (proj2 (getQuotation2_rejects_iff "john.w@gmail.com" [] down (TypeError "down"))).
  reflexivity.
Defined.


(** X10: the premium never rises with age: of two users the same
    lookup resolves, the one who is at least as old is quoted at most
    as much, in both workflows. *)
Theorem premium_monotone
    (lookup1 : string -> promise UserDetails) (lookup2 : getUserDetails1Type)
    (email email' : string) (d d' : UserDetails) (out : console) :
  (age d <=? age d')%float = true ->
  (lookup1 email = Fulfilled d -> lookup1 email' = Fulfilled d' ->
   exists premium premium',
     settle (getQuotation1 email lookup1) out = Fulfilled premium /\
     settle (getQuotation1 email' lookup1) out = Fulfilled premium' /\
     (premium' <=? premium)%float = true) /\
  (lookup2 email = Fulfilled (Right d) -> lookup2 email' = Fulfilled (Right d') ->
   exists premium premium',
     settle (getQuotation2 email lookup2) out = Fulfilled premium /\
     settle (getQuotation2 email' lookup2) out = Fulfilled premium' /\
     (premium' <=? premium)%float = true).
Proof.
  intros Hage.
  assert (Hprice : ((if (age d' <? 30)%float then 500 else 300)
                    <=? (if (age d <? 30)%float then 500 else 300))%float = true).
  { destruct (age d' <? 30)%float eqn:Hold.
    - now rewrite (float_le_lt_trans _ _ _ Hage Hold).
    - now destruct (age d <? 30)%float. }
  unfold settle. split; intros H H'.
  - rewrite (getQuotation1_fulfilled _ _ _ _ H), (getQuotation1_fulfilled _ _ _ _ H').
    simpl. eauto.
  - rewrite (getQuotation2_right _ _ _ _ H), (getQuotation2_right _ _ _ _ H').
    simpl. eauto.
Qed.

Lemma premium_monotone_witness :
  let senior := {| name := "Mary Morstan"; email := "mary.m@gmail.com"; age := 35%float |} in
  let lookup1 := fun e : string =>
    if String.eqb e "john.w@gmail.com" then Fulfilled john_watson else Fulfilled senior in
  (age john_watson <=? age senior)%float = true /\
  exists premium premium',
    settle (getQuotation1 "john.w@gmail.com" lookup1) [] = Fulfilled premium /\
    settle (getQuotation1 "mary.m@gmail.com" lookup1) [] = Fulfilled premium' /\
    (premium' <=? premium)%float = true.
Proof.
  intros senior lookup1. split; [reflexivity|].
  apply (proj1 (premium_monotone lookup1 (fun _ => Pending)
                  "john.w@gmail.com" "mary.m@gmail.com" john_watson senior []
                  eq_refl));
    reflexivity.
Defined.


